(** * tutorialHybrid: turn routing between local commands and Conversation Learner

    A shallow embedding of [src/demos/tutorialHybrid.ts]: the message
    handler registered on [/api/messages] and the two session callbacks
    registered on the Conversation Learner instance [cl].

    The BotBuilder conversation store, the Conversation Learner engine and
    the channel are libraries the file only calls.  They are embedded as
    - a finite map from conversation id to the state object of that
      conversation (state objects are JavaScript objects mutated in place:
      a reference is the conversation id, every read and write goes through
      the one shared store);
    - an engine record [ConversationLearner] whose answers are opaque
      oracles, and whose calls are recorded;
    - an ordered log of every effect a turn or a callback performs.

    Every awaited call into a library resolves: a send, recognize and
    StartSession do not reject on their own account.  One turn or one
    callback is run at a time. *)

From stdpp Require Import gmap strings list fin_maps.

Local Open Scope string_scope.
Local Open Scope list_scope.

(** ** JavaScript values *)

(** The values the state object ([state: any]) holds in this program. *)
Inductive JsValue : Type :=
  | JUndefined
  | JNull
  | JBool (b : bool)
  | JString (s : string).

Global Instance JsValue_eq_dec : EqDecision JsValue.
Proof. solve_decision. Defined.

(** ToBoolean: what [if (v)] and [v ? a : b] test. *)
Definition truthy (v : JsValue) : bool :=
  match v with
  | JUndefined | JNull => false
  | JBool b => b
  | JString s => negb (bool_decide (s = ""))
  end.

(** ToString: what a template literal [`${v}`] interpolates. *)
Definition toString (v : JsValue) : string :=
  match v with
  | JUndefined => "undefined"
  | JNull => "null"
  | JBool true => "true"
  | JBool false => "false"
  | JString s => s
  end.

(** The double-quote character, and the text of the last branch of the
    handler (line 192), which quotes the four commands. *)
Definition dquote : string := String (Ascii.ascii_of_nat 34) EmptyString.

Definition quoted (s : string) : string := dquote +:+ s +:+ dquote.

Definition helpMessage : string :=
  "You can: " +:+ quoted "open store" +:+ ", " +:+ quoted "close store" +:+ ", "
  +:+ quoted "shop" +:+ ", " +:+ quoted "history".

(** A state object: property name to value.  A property that was never
    assigned reads as [undefined]. *)
Abbreviation BotState := (gmap string JsValue).

Definition prop (o : BotState) (name : string) : JsValue :=
  default JUndefined (o !! name).

(** ** Turn context *)

Record Activity : Type := {
  type : string;
  text : option string;
  conversation : string
}.

Record TurnContext : Type := { activity : Activity }.

Global Instance Activity_eq_dec : EqDecision Activity.
Proof. solve_decision. Defined.

Global Instance TurnContext_eq_dec : EqDecision TurnContext.
Proof. solve_decision. Defined.

(** Modelled from the spec: the enumeration [SessionEndState] is imported
    from the SDK and its declaration is not among the sources.  The spec
    gives it as "completed, or other/aborted"; every member other than
    [COMPLETED] is kept apart by a tag. *)
Inductive SessionEndState : Type :=
  | COMPLETED
  | OtherEndState (tag : nat).

Global Instance SessionEndState_eq_dec : EqDecision SessionEndState.
Proof. solve_decision. Defined.

(** The engine's memory as a callback sees it: the entities of the running
    session, written by [RememberEntity], and the entities of the session
    that just ended, read by [PrevEntityValue]. *)
Record ClientMemoryManager : Type := {
  curMemories : gmap string JsValue;
  prevMemories : gmap string string
}.

(** Outcome of an [async] body: it returns, or a [throw] rejects it. *)
Inductive Outcome (A : Type) : Type :=
  | Return (a : A)
  | Throw (e : string).
Arguments Return {A} a.
Arguments Throw {A} e.

Section Bot.

(** What [cl.recognize] resolves to is opaque to the bot. *)
Context {CLRecognizerResult : Type}.

(** ** Effects *)

Inductive Event : Type :=
  | EvSetState (conv : string) (name : string) (v : JsValue)
      (* state.<name> = v on the state object of [conv] *)
  | EvRememberEntity (name : string) (v : JsValue)
      (* memoryManager.RememberEntity(name, v) *)
  | EvSendActivity (conv : string) (msg : string)
      (* context.sendActivity(msg) *)
  | EvRecognize (context : TurnContext)
      (* cl.recognize(context) *)
  | EvSendResult (result : CLRecognizerResult)
      (* cl.SendResult(result) *)
  | EvStartSession (context : TurnContext)
      (* cl.StartSession(context) *)
  | EvOnSessionStart (context : TurnContext).
      (* the engine calls the callback given to cl.OnSessionStartCallback *)

Record World : Type := {
  convoState : gmap string BotState;
    (* BB.ConversationState over BB.MemoryStorage: one object per conversation *)
  state : option string;
    (* the module-level [let state: any = null]: null/undefined, or a
       reference to the state object of a conversation *)
  memoryManager : ClientMemoryManager;
  trace : list Event
}.

Definition M (A : Type) : Type := World -> Outcome A * World.

Global Instance M_ret : MRet M := λ A a w, (Return a, w).

Global Instance M_bind : MBind M := λ A B f m w,
  match m w with
  | (Return a, w') => f a w'
  | (Throw e, w') => (Throw e, w')
  end.

Definition throw {A : Type} (e : string) : M A := λ w, (Throw e, w).

Definition log (ev : Event) : M unit := λ w,
  (Return tt,
   {| convoState := convoState w; state := state w;
      memoryManager := memoryManager w; trace := trace w ++ [ev] |}).

(** [convoState.get(context)]: the state object of the turn's conversation,
    as a reference, or [undefined]. *)
Definition convoState_get (context : TurnContext) : M (option string) := λ w,
  let conv := conversation (activity context) in
  (Return (if convoState w !! conv is Some _ then Some conv else None), w).

(** [o.name] through a reference. *)
Definition get_prop (ref : string) (name : string) : M JsValue := λ w,
  (Return (prop (default ∅ (convoState w !! ref)) name), w).

(** [o.name = v] through a reference: the one object in the store changes. *)
Definition set_prop (ref : string) (name : string) (v : JsValue) : M unit := λ w,
  (Return tt,
   {| convoState := alter (insert name v) ref (convoState w); state := state w;
      memoryManager := memoryManager w;
      trace := trace w ++ [EvSetState ref name v] |}).

(** [state = r] on the module-level variable. *)
Definition assign_state (r : option string) : M unit := λ w,
  (Return tt,
   {| convoState := convoState w; state := r;
      memoryManager := memoryManager w; trace := trace w |}).

(** Reading the module-level variable; dereferencing it while it is
    null/undefined is a TypeError. *)
Definition deref_state : M string := λ w,
  match state w with
  | Some ref => (Return ref, w)
  | None => (Throw "TypeError", w)
  end.

Definition sendActivity (context : TurnContext) (msg : string) : M unit :=
  log (EvSendActivity (conversation (activity context)) msg).

Definition RememberEntity (name : string) (v : JsValue) : M unit := λ w,
  (Return tt,
   {| convoState := convoState w; state := state w;
      memoryManager :=
        {| curMemories := <[name := v]> (curMemories (memoryManager w));
           prevMemories := prevMemories (memoryManager w) |};
      trace := trace w ++ [EvRememberEntity name v] |}).

(** [memoryManager.PrevEntityValue(name)]: [string | null]. *)
Definition PrevEntityValue (name : string) : M JsValue := λ w,
  (Return (from_option JString JNull (prevMemories (memoryManager w) !! name)), w).

(** ** The engine *)

(** What the bot asks of [cl] without seeing how it is answered:
    [cl.inTrainingUI(context)], and what [cl.recognize(context)] resolves
    to ([None] for a falsy result), which may depend on everything the
    engine can see. *)
Record ConversationLearner : Type := {
  inTrainingUI : TurnContext -> bool;
  recognize : TurnContext -> World -> option CLRecognizerResult
}.

Variable cl : ConversationLearner.

Definition recognized (context : TurnContext) : M (option CLRecognizerResult) :=
  λ w, (Return (recognize cl context w), w).

Definition cl_recognize (context : TurnContext) : M (option CLRecognizerResult) :=
  log (EvRecognize context);;
  recognized context.

Definition cl_SendResult (result : CLRecognizerResult) : M unit :=
  log (EvSendResult result).

(** ** Session callbacks (lines 62-68 and 82-104) *)

(** The [memoryManager] argument of a callback is the engine's object, here
    the [memoryManager] of the world: [RememberEntity] and [PrevEntityValue]
    act on it.  [st] is the callback's own [let state]. *)

Definition OnSessionStartCallback (context : TurnContext) : M unit :=
  st ← convoState_get context;
  match st with
  | Some ref =>
      storeIsOpen ← get_prop ref "storeIsOpen";
      if truthy storeIsOpen
      then RememberEntity "isOpen" storeIsOpen
      else mret tt
  | None => mret tt
  end.

Definition OnSessionEndCallback (context : TurnContext)
    (sessionEndState : SessionEndState) (data : option string) : M unit :=
  st ← convoState_get context;
  match st with
  | None => throw "Bot State not Initialized!"
  | Some ref =>
      set_prop ref "usingConversationLearner" (JBool false);;
      if bool_decide (sessionEndState = COMPLETED)
      then
        sendActivity context "Thanks for shopping.";;
        item ← PrevEntityValue "purchaseItem";
        set_prop ref "purchasedItem" item
      else mret tt
  end.

(** Modelled from the spec: [cl.StartSession] belongs to the SDK and is not
    among the sources.  By the spec (section 4.1 step 4 and section 4.2) and
    the comment at line 179, starting a session calls the registered
    session-start callback once, synchronously, before the call returns. *)
Definition cl_StartSession (context : TurnContext) : M unit :=
  log (EvStartSession context);;
  log (EvOnSessionStart context);;
  OnSessionStartCallback context.

(** ** The message handler (lines 130-196) *)

(** [toEngine] is the body shared by the branches of lines 142-147 and
    150-155, [localCommands] the branch of lines 159-195; there [state] is
    the module-level variable. *)

Definition text_is (context : TurnContext) (s : string) : bool :=
  bool_decide (text (activity context) = Some s).

Definition toEngine (context : TurnContext) : M unit :=
  result ← cl_recognize context;
  match result with
  | Some r => cl_SendResult r
  | None => mret tt
  end.

Definition localCommands (context : TurnContext) : M unit :=
  if bool_decide (type (activity context) = "message") then
    if text_is context "open store" then
      ref ← deref_state;
      set_prop ref "storeIsOpen" (JBool true);;
      sendActivity context "Store is OPEN!"
    else if text_is context "close store" then
      ref ← deref_state;
      set_prop ref "storeIsOpen" (JBool false);;
      sendActivity context "Store is CLOSED!"
    else if text_is context "shop" then
      ref ← deref_state;
      set_prop ref "usingConversationLearner" (JBool true);;
      cl_StartSession context;;
      sendActivity context "Let's shop!"
    else if text_is context "history" then
      ref ← deref_state;
      purchasedItem ← get_prop ref "purchasedItem";
      sendActivity context
        ("You bought " +:+
         (if truthy purchasedItem then toString purchasedItem else "nothing"))
    else
      sendActivity context helpMessage
  else mret tt.

Definition handleTurn (context : TurnContext) : M unit :=
  st ← convoState_get context;
  assign_state st;;
  match st with
  | None => throw "Error Getting State"
  | Some _ =>
      if inTrainingUI cl context then toEngine context
      else
        ref ← deref_state;
        usingConversationLearner ← get_prop ref "usingConversationLearner";
        if truthy usingConversationLearner then toEngine context
        else localCommands context
  end.

End Bot.

(** * Properties *)

(** The outbound messages among a run of effects, in order. *)
Definition sent {R : Type} (evs : list (@Event R)) : list string :=
  omap (λ ev, if ev is EvSendActivity _ msg then Some msg else None) evs.

(** The writes to conversation state among a run of effects. *)
Definition stateWrites {R : Type} (evs : list (@Event R)) : list (string * string * JsValue) :=
  omap (λ ev, if ev is EvSetState conv name v then Some (conv, name, v) else None) evs.

(** The entries of the engine into the session-start callback. *)
Definition sessionStarts {R : Type} (evs : list (@Event R)) : list TurnContext :=
  omap (λ ev, if ev is EvOnSessionStart context then Some context else None) evs.

(** The world once [state = convoState.get(context)] has bound the
    module-level variable to the state object of [conv]. *)
Definition bound {R : Type} (conv : string) (w : @World R) : @World R :=
  {| convoState := convoState w; state := Some conv;
     memoryManager := memoryManager w; trace := trace w |}.

(** The world after further effects that only add to the log. *)
Definition logged {R : Type} (evs : list (@Event R)) (w : @World R) : @World R :=
  {| convoState := convoState w; state := state w;
     memoryManager := memoryManager w; trace := trace w ++ evs |}.

(** The turns the engine was asked to recognize among a run of effects. *)
Definition recognizeCalls {R : Type} (evs : list (@Event R)) : list TurnContext :=
  omap (λ ev, if ev is EvRecognize context then Some context else None) evs.

(** What [o.name] reads on the state object of conversation [conv], as
    [get_prop] returns it. *)
Definition stored {R : Type} (w : @World R) (conv name : string) : JsValue :=
  prop (default ∅ (convoState w !! conv)) name.

(** ** Start-up (lines 16-50 and 109-129) *)

(** The module body is a straight script of calls into express, BotBuilder
    and the SDK.  It is embedded as the list of those calls in source order;
    [config] is the object imported from ../config, read by property name. *)
Section Startup.

Context {V : Type}.

Inductive Wiring : Type :=
  | startDol (botPort : option V)
  | server_listen (botPort : option V)
  | new_BotFrameworkAdapter (appId appPassword : option V)
  | new_FileStorage (dirname folder : string)
  | ConversationLearner_Init (clOptions : gmap string V)
  | server_use (path : string)
  | new_ConversationLearner (modelId : option V)
  | cl_OnSessionStartCallback
  | cl_OnSessionEndCallback
  | cl_AddAPICallback (name : string)
  | new_MemoryStorage
  | new_ConversationState
  | adapter_use_BotStateSet
  | server_post (path : string).

(** Line 18: [process.env.NODE_ENV === 'development']. *)
Definition isDevelopment (NODE_ENV : option string) : bool :=
  bool_decide (NODE_ENV = Some "development").

(** Line 28: the rest of [config] once bfAppId, bfAppPassword and modelId
    have been taken out of it. *)
Definition clOptions (config : gmap string V) : gmap string V :=
  delete "modelId" (delete "bfAppPassword" (delete "bfAppId" config)).

Definition startup (NODE_ENV : option string) (dirname : string)
    (config : gmap string V) : list Wiring :=
  [if isDevelopment NODE_ENV
   then startDol (config !! "botPort")
   else server_listen (config !! "botPort")]
  ++ [new_BotFrameworkAdapter (config !! "bfAppId") (config !! "bfAppPassword");
      new_FileStorage dirname "storage";
      ConversationLearner_Init (clOptions config)]
  ++ (if isDevelopment NODE_ENV then [server_use "/sdk"] else [])
  ++ [new_ConversationLearner (config !! "modelId");
      cl_OnSessionStartCallback;
      cl_OnSessionEndCallback;
      cl_AddAPICallback "BadCallback";
      new_MemoryStorage;
      new_ConversationState;
      adapter_use_BotStateSet;
      server_post "/api/messages"].

End Startup.

(** ** Concrete turns and worlds *)

(** A message turn of conversation c1. *)
Definition turn (t : string) : TurnContext :=
  {| activity := {| type := "message"; text := Some t; conversation := "c1" |} |}.

(** An engine that answers every turn with one action; [training] says
    whether it takes turns to come from the training UI. *)
Definition demoEngine (training : bool) : @ConversationLearner string :=
  {| inTrainingUI := λ _, training; recognize := λ _ _, Some "action" |}.

(** A world in which conversation c1 has the state object [st], the engine
    remembers nothing of a running session and [prev] of the last one, the
    module-level variable is still null and nothing has happened yet. *)
Definition demoWorld (st : BotState) (prev : gmap string string) : @World string :=
  {| convoState := {[ "c1" := st ]}; state := None;
     memoryManager := {| curMemories := ∅; prevMemories := prev |};
     trace := [] |}.

(** A world in which no conversation has a state object. *)
Definition emptyWorld : @World string :=
  {| convoState := ∅; state := None;
     memoryManager := {| curMemories := ∅; prevMemories := ∅ |};
     trace := [] |}.

Section BotFacts.

Context {CLRecognizerResult : Type}.
Variable cl : @ConversationLearner CLRecognizerResult.

Implicit Types (context : TurnContext) (w : @World CLRecognizerResult)
  (st : BotState) (v : JsValue) (data : option string).

Local Abbreviation conv_of context := (conversation (activity context)).

(** Unfolding of the monad and of the primitive effects. *)
Ltac run :=
  repeat (progress (
    unfold mbind, mret, M_bind, M_ret, throw, log, sendActivity, set_prop,
      get_prop, assign_state, deref_state, RememberEntity, PrevEntityValue,
      cl_SendResult, cl_recognize, recognized;
    cbn [fst snd convoState state memoryManager trace curMemories prevMemories])).

Lemma convoState_get_Some context w st :
  convoState w !! conv_of context = Some st →
  convoState_get context w = (Return (Some (conv_of context)), w).
Proof. intros H. unfold convoState_get. cbn. by rewrite H. Qed.

Lemma convoState_get_None context w :
  convoState w !! conv_of context = None →
  convoState_get context w = (Return None, w).
Proof. intros H. unfold convoState_get. cbn. by rewrite H. Qed.

Lemma alter_insert_lookup (m : gmap string BotState) ref name v st :
  m !! ref = Some st →
  alter (insert name v) ref m = <[ref := <[name := v]> st]> m.
Proof.
  intros H. apply map_eq. intros k.
  destruct (decide (ref = k)) as [->|Hne].
  - by rewrite lookup_alter_eq, lookup_insert_eq, H.
  - by rewrite lookup_alter_ne, lookup_insert_ne.
Qed.

(** ** The session-end callback *)

(** What the callback does on a conversation that has a state object, for
    each classification. *)
Lemma OnSessionEndCallback_Some context ses data w st :
  convoState w !! conv_of context = Some st →
  OnSessionEndCallback context ses data w =
  (Return tt,
   if bool_decide (ses = COMPLETED) then
     let item := from_option JString JNull
                   (prevMemories (memoryManager w) !! "purchaseItem") in
     {| convoState :=
          <[conv_of context :=
              <["purchasedItem" := item]>
                (<["usingConversationLearner" := JBool false]> st)]> (convoState w);
        state := state w;
        memoryManager := memoryManager w;
        trace := trace w ++
          [EvSetState (conv_of context) "usingConversationLearner" (JBool false);
           EvSendActivity (conv_of context) "Thanks for shopping.";
           EvSetState (conv_of context) "purchasedItem" item] |}
   else
     {| convoState :=
          <[conv_of context := <["usingConversationLearner" := JBool false]> st]>
            (convoState w);
        state := state w;
        memoryManager := memoryManager w;
        trace := trace w ++
          [EvSetState (conv_of context) "usingConversationLearner" (JBool false)] |}).
Proof.
  intros H. unfold OnSessionEndCallback. run.
  rewrite (convoState_get_Some _ _ _ H). run.
  rewrite (alter_insert_lookup _ _ _ _ _ H).
  case_bool_decide; run; [|done].
  erewrite alter_insert_lookup by apply lookup_insert_eq.
  rewrite insert_insert_eq, <- !app_assoc. done.
Qed.

(** C1: whenever the session-end callback runs on a conversation that has a
    state object, it returns normally, its first effect is the write
    usingConversationLearner = false, and the state object holds
    usingConversationLearner = false when it returns, whatever the
    classification of the ended session is. *)
Theorem session_end_resets_usingConversationLearner context ses data w st :
  convoState w !! conv_of context = Some st →
  ∃ w' st' later,
    OnSessionEndCallback context ses data w = (Return tt, w') ∧
    trace w' = trace w ++
      EvSetState (conv_of context) "usingConversationLearner" (JBool false) :: later ∧
    convoState w' !! conv_of context = Some st' ∧
    st' !! "usingConversationLearner" = Some (JBool false).
Proof.
  intros H. rewrite (OnSessionEndCallback_Some _ ses data _ _ H).
  case_bool_decide; eexists _, _, _;
    (split; [reflexivity|]); cbn [convoState trace];
    (split; [reflexivity|]);
    rewrite lookup_insert_eq; (split; [reflexivity|]).
  - by rewrite lookup_insert_ne, lookup_insert_eq.
  - by rewrite lookup_insert_eq.
Qed.

(** C9: when the session-end callback runs on a conversation that has no
    state object, it throws, and nothing has changed at that point: not the
    conversation store, not the engine memory, and no effect was performed. *)
Theorem session_end_without_state_throws context ses data w :
  convoState w !! conv_of context = None →
  OnSessionEndCallback context ses data w = (Throw "Bot State not Initialized!", w).
Proof.
  intros H. unfold OnSessionEndCallback. run.
  by rewrite (convoState_get_None _ _ H).
Qed.

(** ** The message handler *)

(** Past the guard of line 138 the handler is the three-way choice of
    lines 142-195, run with the module-level variable bound. *)
Lemma handleTurn_Some context w st :
  convoState w !! conv_of context = Some st →
  handleTurn cl context w =
  if inTrainingUI cl context then toEngine cl context (bound (conv_of context) w)
  else if truthy (prop st "usingConversationLearner")
       then toEngine cl context (bound (conv_of context) w)
       else localCommands context (bound (conv_of context) w).
Proof.
  intros H. unfold handleTurn. run.
  rewrite (convoState_get_Some _ _ _ H). run.
  fold (bound (conv_of context) w).
  destruct (inTrainingUI cl context); [done|].
  unfold bound. run. rewrite H. cbn [default].
  by destruct (truthy _).
Qed.

Lemma toEngine_run context w :
  toEngine cl context w =
  (Return tt,
   logged (EvRecognize context ::
           from_option (λ r, [EvSendResult r]) []
             (recognize cl context (logged [EvRecognize context] w))) w).
Proof.
  unfold toEngine. run. fold (logged [EvRecognize context] w).
  destruct (recognize cl context _); run; unfold logged; cbn [from_option trace convoState state memoryManager].
  - by rewrite <- app_assoc.
  - done.
Qed.

(** The branches of the local dispatch (lines 161-194), run with the
    module-level variable bound to the state object [st] of the turn. *)
Ltac pick_branch Hty Htx :=
  unfold localCommands, text_is; rewrite Hty, Htx;
  repeat (first [ rewrite bool_decide_eq_true_2 by done
                | rewrite bool_decide_eq_false_2 by done ]);
  unfold bound; run.

Lemma localCommands_store (b : bool) context w st :
  convoState w !! conv_of context = Some st →
  type (activity context) = "message" →
  text (activity context) = Some (if b then "open store" else "close store") →
  localCommands context (bound (conv_of context) w) =
  (Return tt,
   {| convoState := <[conv_of context := <["storeIsOpen" := JBool b]> st]> (convoState w);
      state := Some (conv_of context);
      memoryManager := memoryManager w;
      trace := trace w ++
        [EvSetState (conv_of context) "storeIsOpen" (JBool b);
         EvSendActivity (conv_of context)
           (if b then "Store is OPEN!" else "Store is CLOSED!")] |}).
Proof.
  intros H Hty Htx.
  destruct b; pick_branch Hty Htx;
    by rewrite (alter_insert_lookup _ _ _ _ _ H), <- app_assoc.
Qed.

Lemma OnSessionStartCallback_run context w :
  OnSessionStartCallback context w =
  (Return tt,
   let seen := from_option (λ st, prop st "storeIsOpen") JUndefined
                 (convoState w !! conv_of context) in
   if truthy seen then
     {| convoState := convoState w; state := state w;
        memoryManager :=
          {| curMemories := <["isOpen" := seen]> (curMemories (memoryManager w));
             prevMemories := prevMemories (memoryManager w) |};
        trace := trace w ++ [EvRememberEntity "isOpen" seen] |}
   else w).
Proof.
  unfold OnSessionStartCallback, convoState_get. run.
  destruct (convoState w !! conv_of context) as [st|] eqn:H; run; [|done].
  rewrite H. cbn [default from_option]. by destruct (truthy _).
Qed.

Lemma localCommands_history context w st :
  convoState w !! conv_of context = Some st →
  type (activity context) = "message" →
  text (activity context) = Some "history" →
  localCommands context (bound (conv_of context) w) =
  (Return tt,
   logged [EvSendActivity (conv_of context)
             ("You bought " +:+
              (if truthy (prop st "purchasedItem")
               then toString (prop st "purchasedItem") else "nothing"))]
     (bound (conv_of context) w)).
Proof.
  intros H Hty Htx. pick_branch Hty Htx. by rewrite H.
Qed.

Lemma localCommands_other context w :
  type (activity context) = "message" →
  text (activity context) ≠ Some "open store" →
  text (activity context) ≠ Some "close store" →
  text (activity context) ≠ Some "shop" →
  text (activity context) ≠ Some "history" →
  localCommands context w =
  (Return tt, logged [EvSendActivity (conv_of context) helpMessage] w).
Proof.
  intros Hty H1 H2 H3 H4. unfold localCommands, text_is. rewrite Hty.
  rewrite bool_decide_eq_true_2 by done.
  by rewrite !bool_decide_eq_false_2 by done.
Qed.

Lemma localCommands_shop context w st :
  convoState w !! conv_of context = Some st →
  type (activity context) = "message" →
  text (activity context) = Some "shop" →
  localCommands context (bound (conv_of context) w) =
  let atHook :=
    {| convoState :=
         <[conv_of context := <["usingConversationLearner" := JBool true]> st]>
           (convoState w);
       state := Some (conv_of context);
       memoryManager := memoryManager w;
       trace := trace w ++
         [EvSetState (conv_of context) "usingConversationLearner" (JBool true);
          EvStartSession context; EvOnSessionStart context] |} in
  (Return tt,
   logged [EvSendActivity (conv_of context) "Let's shop!"]
     (snd (OnSessionStartCallback context atHook))).
Proof.
  intros H Hty Htx. pick_branch Hty Htx.
  rewrite (alter_insert_lookup _ _ _ _ _ H).
  unfold cl_StartSession. run. rewrite <- !app_assoc. cbn [app].
  by rewrite OnSessionStartCallback_run.
Qed.

(** C8: a turn whose conversation has no state object is rejected with the
    error of line 138; the conversation store and the engine memory are as
    before and the turn performed no effect (no send, no call of the
    engine), whatever the engine would say about the turn. *)
Theorem handleTurn_without_state_throws context w :
  convoState w !! conv_of context = None →
  ∃ w',
    handleTurn cl context w = (Throw "Error Getting State", w') ∧
    state w' = None ∧
    convoState w' = convoState w ∧
    memoryManager w' = memoryManager w ∧
    trace w' = trace w.
Proof.
  intros H. unfold handleTurn. run.
  rewrite (convoState_get_None _ _ H). run.
  by eexists.
Qed.

(** C2: a turn of the training UI whose conversation has a state object is
    handed to the engine: the handler calls recognize, passes the result, if
    there is one, to SendResult, and does nothing else.  No message is sent
    by the handler, no session is started and neither the state object nor
    the engine memory is written, whatever usingConversationLearner holds
    and whatever the text of the turn is. *)
Theorem training_turn_goes_to_engine context w st :
  convoState w !! conv_of context = Some st →
  inTrainingUI cl context = true →
  ∃ w' result,
    handleTurn cl context w = (Return tt, w') ∧
    result = recognize cl context
               (logged [EvRecognize context] (bound (conv_of context) w)) ∧
    trace w' = trace w ++
      EvRecognize context :: from_option (λ r, [EvSendResult r]) [] result ∧
    sent (trace w') = sent (trace w) ∧
    stateWrites (trace w') = stateWrites (trace w) ∧
    sessionStarts (trace w') = sessionStarts (trace w) ∧
    convoState w' = convoState w ∧
    memoryManager w' = memoryManager w.
Proof.
  intros H Htr. rewrite (handleTurn_Some _ _ _ H), Htr, toEngine_run.
  set (result := recognize cl context _).
  exists (logged (EvRecognize context :: from_option (λ r, [EvSendResult r]) [] result)
            (bound (conv_of context) w)), result.
  split; [reflexivity|]. split; [reflexivity|].
  unfold logged, bound, sent, stateWrites, sessionStarts.
  cbn [trace convoState memoryManager]. rewrite !omap_app.
  split; [reflexivity|].
  destruct result; cbn [from_option omap]; by rewrite !app_nil_r.
Qed.

(** C6: a message turn that the local dispatch handles and whose text is
    none of the four commands gets the help message and nothing else: the
    one effect of the turn is the send of the text of line 192, which lists
    the four commands between double quotes (character code 34), and the
    conversation store (every property of every state object) and the
    engine memory are as before. *)
Theorem unknown_text_gets_help context w st :
  convoState w !! conv_of context = Some st →
  inTrainingUI cl context = false →
  truthy (prop st "usingConversationLearner") = false →
  type (activity context) = "message" →
  text (activity context) ≠ Some "open store" →
  text (activity context) ≠ Some "close store" →
  text (activity context) ≠ Some "shop" →
  text (activity context) ≠ Some "history" →
  ∃ w',
    let q := String (Ascii.ascii_of_nat 34) in
    let help :=
      "You can: " +:+ q ("open store" +:+ q (", " +:+ q ("close store" +:+ q (", "
        +:+ q ("shop" +:+ q (", " +:+ q ("history" +:+ q EmptyString))))))) in
    handleTurn cl context w = (Return tt, w') ∧
    trace w' = trace w ++ [EvSendActivity (conv_of context) help] ∧
    sent (trace w') = sent (trace w) ++ [help] ∧
    stateWrites (trace w') = stateWrites (trace w) ∧
    convoState w' = convoState w ∧
    memoryManager w' = memoryManager w.
Proof.
  intros H Htr Hcl Hty H1 H2 H3 H4.
  rewrite (handleTurn_Some _ _ _ H), Htr, Hcl.
  rewrite localCommands_other by done.
  eexists. cbv zeta. split; [reflexivity|].
  unfold logged, bound, sent, stateWrites.
  cbn [trace convoState memoryManager]. rewrite !omap_app. cbn [omap].
  split; [reflexivity|]. split; [reflexivity|].
  by rewrite app_nil_r.
Qed.

(** C7: in the local dispatch, open store writes storeIsOpen = true and
    sends the open confirmation, close store writes storeIsOpen = false and
    sends the close confirmation ([b] tells the two apart); these are the
    only effects of the turn, and usingConversationLearner, like every
    other property of the state object, is as before. *)
Theorem store_commands_set_storeIsOpen (b : bool) context w st :
  convoState w !! conv_of context = Some st →
  inTrainingUI cl context = false →
  truthy (prop st "usingConversationLearner") = false →
  type (activity context) = "message" →
  text (activity context) = Some (if b then "open store" else "close store") →
  ∃ w' st',
    handleTurn cl context w = (Return tt, w') ∧
    trace w' = trace w ++
      [EvSetState (conv_of context) "storeIsOpen" (JBool b);
       EvSendActivity (conv_of context)
         (if b then "Store is OPEN!" else "Store is CLOSED!")] ∧
    convoState w' !! conv_of context = Some st' ∧
    st' = <["storeIsOpen" := JBool b]> st ∧
    st' !! "storeIsOpen" = Some (JBool b) ∧
    st' !! "usingConversationLearner" = st !! "usingConversationLearner" ∧
    memoryManager w' = memoryManager w.
Proof.
  intros H Htr Hcl Hty Htx.
  rewrite (handleTurn_Some _ _ _ H), Htr, Hcl.
  rewrite (localCommands_store b _ _ _ H Hty Htx).
  eexists _, _. split; [reflexivity|]. cbn [trace convoState memoryManager].
  split; [done|]. rewrite lookup_insert_eq. split; [done|]. split; [done|].
  by rewrite lookup_insert_eq, lookup_insert_ne.
Qed.

(** C3: a message turn with the text shop, handled by the local dispatch,
    first writes usingConversationLearner = true, then calls StartSession,
    during which the engine enters the session-start callback once; the
    callback runs on the store as the write left it, where storeIsOpen is
    what it was before the turn, and so seeds isOpen from that value; the
    confirmation is sent after the callback has returned. *)
Theorem shop_starts_session context w st :
  convoState w !! conv_of context = Some st →
  inTrainingUI cl context = false →
  truthy (prop st "usingConversationLearner") = false →
  type (activity context) = "message" →
  text (activity context) = Some "shop" →
  ∃ atHook afterHook w' stHook evs,
    (* the world in which the callback is entered *)
    convoState atHook =
      <[conv_of context := <["usingConversationLearner" := JBool true]> st]>
        (convoState w) ∧
    trace atHook = trace w ++
      [EvSetState (conv_of context) "usingConversationLearner" (JBool true);
       EvStartSession context; EvOnSessionStart context] ∧
    convoState atHook !! conv_of context = Some stHook ∧
    stHook !! "usingConversationLearner" = Some (JBool true) ∧
    stHook !! "storeIsOpen" = st !! "storeIsOpen" ∧
    (* the callback, then the confirmation *)
    OnSessionStartCallback context atHook = (Return tt, afterHook) ∧
    handleTurn cl context w =
      (Return tt, logged [EvSendActivity (conv_of context) "Let's shop!"] afterHook) ∧
    w' = logged [EvSendActivity (conv_of context) "Let's shop!"] afterHook ∧
    (* what the turn did, in order *)
    trace w' = trace w ++ evs ∧
    evs =
      [EvSetState (conv_of context) "usingConversationLearner" (JBool true);
       EvStartSession context; EvOnSessionStart context]
      ++ (if truthy (prop st "storeIsOpen")
          then [EvRememberEntity "isOpen" (prop st "storeIsOpen")] else [])
      ++ [EvSendActivity (conv_of context) "Let's shop!"] ∧
    sessionStarts evs = [context] ∧
    convoState w' = convoState atHook ∧
    curMemories (memoryManager w') =
      (if truthy (prop st "storeIsOpen")
       then <["isOpen" := prop st "storeIsOpen"]> (curMemories (memoryManager w))
       else curMemories (memoryManager w)).
Proof.
  intros H Htr Hcl Hty Htx.
  rewrite (handleTurn_Some _ _ _ H), Htr, Hcl.
  rewrite (localCommands_shop _ _ _ H Hty Htx). cbv zeta.
  set (atHook := {| convoState := _; state := _; memoryManager := _; trace := _ |}).
  exists atHook, (snd (OnSessionStartCallback context atHook)),
    (logged [EvSendActivity (conv_of context) "Let's shop!"]
       (snd (OnSessionStartCallback context atHook))),
    (<["usingConversationLearner" := JBool true]> st).
  eexists.
  split; [reflexivity|]. split; [reflexivity|].
  split; [apply lookup_insert_eq|].
  split; [apply lookup_insert_eq|].
  split; [by rewrite lookup_insert_ne|].
  rewrite OnSessionStartCallback_run. cbv zeta. cbn [snd].
  split; [reflexivity|]. split; [reflexivity|]. split; [reflexivity|].
  subst atHook. cbn [convoState]. rewrite lookup_insert_eq. cbn [from_option].
  assert (prop (<["usingConversationLearner" := JBool true]> st) "storeIsOpen"
          = prop st "storeIsOpen") as ->
    by (unfold prop; by rewrite lookup_insert_ne).
  split; [|split; [reflexivity|]].
  - destruct (truthy (prop st "storeIsOpen")); unfold logged;
      cbn [trace]; by rewrite <- !app_assoc.
  - destruct (truthy (prop st "storeIsOpen")); unfold logged;
      cbn [convoState memoryManager curMemories]; done.
Qed.

(** C4, as the code has it: the session-start callback always returns
    normally and never writes to the conversation store.  It calls
    RememberEntity for isOpen exactly when the conversation has a state
    object whose storeIsOpen is truthy, with that value; when storeIsOpen is
    false or was never assigned, or there is no state object, the callback
    does nothing at all. *)
Theorem session_start_seeds_isOpen_when_truthy context w :
  ∃ w' seen,
    OnSessionStartCallback context w = (Return tt, w') ∧
    seen = from_option (λ st, prop st "storeIsOpen") JUndefined
             (convoState w !! conv_of context) ∧
    convoState w' = convoState w ∧
    stateWrites (trace w') = stateWrites (trace w) ∧
    (truthy seen = true →
       trace w' = trace w ++ [EvRememberEntity "isOpen" seen] ∧
       curMemories (memoryManager w') =
         <["isOpen" := seen]> (curMemories (memoryManager w))) ∧
    (truthy seen = false → w' = w).
Proof.
  rewrite OnSessionStartCallback_run. cbv zeta.
  eexists _, _. split; [reflexivity|]. split; [reflexivity|].
  destruct (truthy _); cbn [convoState trace memoryManager curMemories].
  - split; [done|]. split; [|done].
    unfold stateWrites. rewrite omap_app. cbn. by rewrite app_nil_r.
  - done.
Qed.

(** C10: the payload of the session-end callback has no influence at all:
    two runs that differ in it only end in the same outcome and the same
    world.  What a completed session persists as purchasedItem is the
    engine memory's previous value of purchaseItem (null when there is
    none), for every payload. *)
Theorem session_end_ignores_data context ses data1 data2 w :
  OnSessionEndCallback context ses data1 w = OnSessionEndCallback context ses data2 w ∧
  (∀ st, convoState w !! conv_of context = Some st → ses = COMPLETED →
     ∃ st',
       convoState (snd (OnSessionEndCallback context ses data1 w)) !! conv_of context
         = Some st' ∧
       st' !! "purchasedItem" =
         Some (from_option JString JNull
                 (prevMemories (memoryManager w) !! "purchaseItem"))).
Proof.
  split; [reflexivity|]. intros st H ->.
  rewrite (OnSessionEndCallback_Some _ _ _ _ _ H).
  rewrite bool_decide_eq_true_2 by done. cbv zeta. cbn [snd convoState].
  eexists. split; [apply lookup_insert_eq|]. apply lookup_insert_eq.
Qed.

(** What a history turn answers in the local dispatch. *)
Lemma history_answer context w st :
  convoState w !! conv_of context = Some st →
  inTrainingUI cl context = false →
  truthy (prop st "usingConversationLearner") = false →
  type (activity context) = "message" →
  text (activity context) = Some "history" →
  handleTurn cl context w =
  (Return tt,
   logged [EvSendActivity (conv_of context)
             ("You bought " +:+
              (if truthy (prop st "purchasedItem")
               then toString (prop st "purchasedItem") else "nothing"))]
     (bound (conv_of context) w)).
Proof.
  intros H Htr Hcl Hty Htx.
  rewrite (handleTurn_Some _ _ _ H), Htr, Hcl.
  apply (localCommands_history _ _ _ H Hty Htx).
Qed.

(** C5, as the code has it.  Let [historyTurn] be a history message that the
    training UI does not own.
    (1) A completed session whose engine memory holds a previous value
        [item] of purchaseItem: the session-end callback sends the closing
        message and writes purchasedItem = [item]; the history turn that
        follows in the same conversation answers with [item] itself when
        [item] is not the empty string, and with the word nothing when it is.
    (2) In the local dispatch, a history turn on a state object whose
        purchasedItem was never assigned answers with the word nothing. *)
Theorem completed_session_result_shown_by_history historyTurn :
  inTrainingUI cl historyTurn = false →
  type (activity historyTurn) = "message" →
  text (activity historyTurn) = Some "history" →
  (∀ context data w st item,
     convoState w !! conv_of context = Some st →
     prevMemories (memoryManager w) !! "purchaseItem" = Some item →
     conv_of historyTurn = conv_of context →
     ∃ w1 st1 w2,
       OnSessionEndCallback context COMPLETED data w = (Return tt, w1) ∧
       trace w1 = trace w ++
         [EvSetState (conv_of context) "usingConversationLearner" (JBool false);
          EvSendActivity (conv_of context) "Thanks for shopping.";
          EvSetState (conv_of context) "purchasedItem" (JString item)] ∧
       convoState w1 !! conv_of context = Some st1 ∧
       st1 !! "purchasedItem" = Some (JString item) ∧
       handleTurn cl historyTurn w1 = (Return tt, w2) ∧
       (item ≠ "" →
          trace w2 = trace w1 ++
            [EvSendActivity (conv_of context) ("You bought " +:+ item)]) ∧
       (item = "" →
          trace w2 = trace w1 ++
            [EvSendActivity (conv_of context) "You bought nothing"])) ∧
  (∀ w st,
     convoState w !! conv_of historyTurn = Some st →
     truthy (prop st "usingConversationLearner") = false →
     st !! "purchasedItem" = None →
     ∃ w',
       handleTurn cl historyTurn w = (Return tt, w') ∧
       trace w' = trace w ++
         [EvSendActivity (conv_of historyTurn) "You bought nothing"]).
Proof.
  intros Htr Hty Htx. split.
  - intros context data w st item H Hprev Hconv.
    rewrite (OnSessionEndCallback_Some _ COMPLETED data _ _ H).
    rewrite bool_decide_eq_true_2 by done. cbv zeta. rewrite Hprev.
    cbn [from_option].
    set (st1 := <["purchasedItem" := JString item]> _).
    set (w1 := {| convoState := _; state := _; memoryManager := _; trace := _ |}).
    assert (convoState w1 !! conv_of historyTurn = Some st1) as H1
      by (rewrite Hconv; apply lookup_insert_eq).
    assert (truthy (prop st1 "usingConversationLearner") = false) as Hcl1
      by (unfold prop, st1; by rewrite lookup_insert_ne, lookup_insert_eq).
    exists w1, st1. eexists.
    split; [reflexivity|]. split; [reflexivity|].
    split; [apply lookup_insert_eq|]. split; [apply lookup_insert_eq|].
    split; [apply (history_answer _ _ _ H1 Htr Hcl1 Hty Htx)|].
    unfold logged, bound, prop, st1. cbn [trace].
    rewrite lookup_insert_eq, Hconv. cbn [default id truthy toString].
    split.
    + intros Hne. by rewrite bool_decide_eq_false_2.
    + by intros ->.
  - intros w st H Hcl Hnone.
    rewrite (history_answer _ _ _ H Htr Hcl Hty Htx).
    eexists. split; [reflexivity|].
    unfold logged, bound, prop. cbn [trace]. by rewrite Hnone.
Qed.

(** * Further properties of the handler and the callbacks *)

(** ** Branches the handler takes *)

Lemma localCommands_not_message context w :
  type (activity context) ≠ "message" →
  localCommands context w = (Return tt, w).
Proof.
  intros Hty. unfold localCommands. by rewrite bool_decide_eq_false_2.
Qed.

(** X1: while usingConversationLearner is truthy, a turn that is not of the
    training UI is handed to the engine like a training turn (lines
    150-155): recognize, then SendResult if there is a result; the handler
    sends nothing, starts no session and writes neither the store nor the
    engine memory, so the local commands are switched off for every text. *)
Theorem delegated_turn_goes_to_engine context w st :
  convoState w !! conv_of context = Some st →
  inTrainingUI cl context = false →
  truthy (prop st "usingConversationLearner") = true →
  ∃ w' result,
    handleTurn cl context w = (Return tt, w') ∧
    result = recognize cl context
               (logged [EvRecognize context] (bound (conv_of context) w)) ∧
    trace w' = trace w ++
      EvRecognize context :: from_option (λ r, [EvSendResult r]) [] result ∧
    sent (trace w') = sent (trace w) ∧
    stateWrites (trace w') = stateWrites (trace w) ∧
    sessionStarts (trace w') = sessionStarts (trace w) ∧
    convoState w' = convoState w ∧
    memoryManager w' = memoryManager w.
Proof.
  intros H Htr Hcl. rewrite (handleTurn_Some _ _ _ H), Htr, Hcl, toEngine_run.
  set (result := recognize cl context _).
  exists (logged (EvRecognize context :: from_option (λ r, [EvSendResult r]) [] result)
            (bound (conv_of context) w)), result.
  split; [reflexivity|]. split; [reflexivity|].
  unfold logged, bound, sent, stateWrites, sessionStarts.
  cbn [trace convoState memoryManager]. rewrite !omap_app.
  split; [reflexivity|].
  destruct result; cbn [from_option omap]; by rewrite !app_nil_r.
Qed.

(** X2: an activity that is not a message and reaches the local dispatch
    (line 161) is dropped without a trace: the handler returns normally, no
    effect is performed and the store and the engine memory are as before,
    even when the text of the activity is one of the commands. *)
Theorem non_message_activity_ignored context w st :
  convoState w !! conv_of context = Some st →
  inTrainingUI cl context = false →
  truthy (prop st "usingConversationLearner") = false →
  type (activity context) ≠ "message" →
  handleTurn cl context w = (Return tt, bound (conv_of context) w) ∧
  trace (bound (conv_of context) w) = trace w ∧
  convoState (bound (conv_of context) w) = convoState w ∧
  memoryManager (bound (conv_of context) w) = memoryManager w.
Proof.
  intros H Htr Hcl Hty.
  rewrite (handleTurn_Some _ _ _ H), Htr, Hcl.
  by rewrite localCommands_not_message.
Qed.

Lemma handleTurn_without_state_throws_aux context w :
  convoState w !! conv_of context = None →
  ∃ w',
    handleTurn cl context w = (Throw "Error Getting State", w') ∧
    convoState w' = convoState w ∧
    memoryManager w' = memoryManager w ∧
    trace w' = trace w.
Proof.
  intros H. unfold handleTurn. run.
  rewrite (convoState_get_None _ _ H). run.
  by eexists.
Qed.

(** ** What the session-end callback leaves alone *)

(** X3: a session that ends with any classification other than COMPLETED
    (lines 87-90) only resets usingConversationLearner: that write is the
    one effect, no message is sent, and purchasedItem keeps the value of an
    earlier session. *)
Theorem session_end_not_completed_only_resets context ses data w st :
  convoState w !! conv_of context = Some st →
  ses ≠ COMPLETED →
  ∃ w',
    OnSessionEndCallback context ses data w = (Return tt, w') ∧
    trace w' = trace w ++
      [EvSetState (conv_of context) "usingConversationLearner" (JBool false)] ∧
    sent (trace w') = sent (trace w) ∧
    convoState w' =
      <[conv_of context := <["usingConversationLearner" := JBool false]> st]>
        (convoState w) ∧
    stored w' (conv_of context) "purchasedItem" = stored w (conv_of context) "purchasedItem" ∧
    memoryManager w' = memoryManager w.
Proof.
  intros H Hses. rewrite (OnSessionEndCallback_Some _ ses data _ _ H).
  rewrite bool_decide_eq_false_2 by done.
  eexists. split; [reflexivity|]. cbn [trace convoState memoryManager].
  split; [reflexivity|].
  split; [unfold sent; rewrite omap_app; cbn [omap]; by rewrite app_nil_r|].
  split; [reflexivity|]. split; [|reflexivity].
  unfold stored, prop. cbn [convoState].
  rewrite lookup_insert_eq, H. cbn [default from_option id]. by rewrite lookup_insert_ne.
Qed.

(** X4: whatever the classification, the session-end callback changes no
    property of the state object other than usingConversationLearner and
    purchasedItem (so storeIsOpen survives the session), touches no other
    conversation, and leaves the engine memory and the module-level
    variable as they are. *)
Theorem session_end_frame context ses data w st :
  convoState w !! conv_of context = Some st →
  ∃ w',
    OnSessionEndCallback context ses data w = (Return tt, w') ∧
    (∀ name, name ≠ "usingConversationLearner" → name ≠ "purchasedItem" →
       stored w' (conv_of context) name = stored w (conv_of context) name) ∧
    (∀ conv', conv' ≠ conv_of context →
       convoState w' !! conv' = convoState w !! conv') ∧
    memoryManager w' = memoryManager w ∧
    state w' = state w.
Proof.
  intros H. rewrite (OnSessionEndCallback_Some _ ses data _ _ H).
  eexists. split; [reflexivity|].
  case_bool_decide; cbv zeta; cbn [convoState memoryManager state];
    (split; [|split; [|done]]).
  - intros name H1 H2. unfold stored, prop. cbn [convoState].
    rewrite lookup_insert_eq, H. cbn [default from_option id].
    by rewrite !lookup_insert_ne.
  - intros conv' Hne. by rewrite lookup_insert_ne.
  - intros name H1 H2. unfold stored, prop. cbn [convoState].
    rewrite lookup_insert_eq, H. cbn [default from_option id].
    by rewrite !lookup_insert_ne.
  - intros conv' Hne. by rewrite lookup_insert_ne.
Qed.

(** X5: a completed session in which the engine has no previous value of
    purchaseItem overwrites purchasedItem with null (line 99 assigns
    unconditionally): whatever an earlier session had stored is gone, and a
    history turn that follows in the local dispatch answers with the word
    nothing. *)
Theorem completed_session_without_item_erases_purchase context data w st historyTurn :
  convoState w !! conv_of context = Some st →
  prevMemories (memoryManager w) !! "purchaseItem" = None →
  conv_of historyTurn = conv_of context →
  inTrainingUI cl historyTurn = false →
  type (activity historyTurn) = "message" →
  text (activity historyTurn) = Some "history" →
  ∃ w1 w2,
    OnSessionEndCallback context COMPLETED data w = (Return tt, w1) ∧
    stored w1 (conv_of context) "purchasedItem" = JNull ∧
    handleTurn cl historyTurn w1 = (Return tt, w2) ∧
    trace w2 = trace w1 ++
      [EvSendActivity (conv_of context) "You bought nothing"].
Proof.
  intros H Hprev Hconv Htr Hty Htx.
  rewrite (OnSessionEndCallback_Some _ COMPLETED data _ _ H).
  rewrite bool_decide_eq_true_2 by done. cbv zeta. rewrite Hprev.
  cbn [from_option].
  set (st1 := <["purchasedItem" := JNull]> _).
  set (w1 := {| convoState := _; state := _; memoryManager := _; trace := _ |}).
  assert (convoState w1 !! conv_of historyTurn = Some st1) as H1
    by (rewrite Hconv; apply lookup_insert_eq).
  assert (truthy (prop st1 "usingConversationLearner") = false) as Hcl1
    by (unfold prop, st1; by rewrite lookup_insert_ne, lookup_insert_eq).
  exists w1. eexists. split; [reflexivity|].
  split.
  { unfold stored, prop, w1. cbn [convoState].
    rewrite lookup_insert_eq. cbn [default from_option id]. unfold st1.
    by rewrite lookup_insert_eq. }
  split; [apply (history_answer _ _ _ H1 Htr Hcl1 Hty Htx)|].
  unfold logged, bound, prop, st1. cbn [trace].
  by rewrite lookup_insert_eq, Hconv.
Qed.

(** ** What no turn does *)

(** The local dispatch, branch by branch: it returns normally, stays within
    the conversation of the turn, writes neither purchasedItem nor the
    previous memories, and writes the engine memory in the shop branch only. *)
Lemma localCommands_frame context w st :
  convoState w !! conv_of context = Some st →
  ∃ w',
    localCommands context (bound (conv_of context) w) = (Return tt, w') ∧
    (∀ conv', conv' ≠ conv_of context →
       convoState w' !! conv' = convoState w !! conv') ∧
    (∀ conv', stored w' conv' "purchasedItem" = stored w conv' "purchasedItem") ∧
    prevMemories (memoryManager w') = prevMemories (memoryManager w) ∧
    (text (activity context) ≠ Some "shop" → memoryManager w' = memoryManager w).
Proof.
  intros H.
  assert (∀ name v conv', name ≠ "purchasedItem" →
            prop (default ∅ (<[conv_of context := <[name := v]> st]> (convoState w) !! conv'))
              "purchasedItem"
            = prop (default ∅ (convoState w !! conv')) "purchasedItem") as Hkeep.
  { intros name v conv' Hname. destruct (decide (conv' = conv_of context)) as [->|Hne].
    - rewrite lookup_insert_eq, H. cbn [default from_option id]. unfold prop.
      by rewrite lookup_insert_ne.
    - by rewrite lookup_insert_ne. }
  destruct (decide (type (activity context) = "message")) as [Hty|Hty];
    [|rewrite (localCommands_not_message _ _ Hty); by eexists].
  destruct (decide (text (activity context) = Some "open store")) as [Htx|H1].
  { rewrite (localCommands_store true _ _ _ H Hty Htx). eexists.
    split; [reflexivity|]. cbn [convoState memoryManager]. unfold stored.
    split; [intros; by rewrite lookup_insert_ne|]. split; [|done].
    intros conv'. by apply Hkeep. }
  destruct (decide (text (activity context) = Some "close store")) as [Htx|H2].
  { rewrite (localCommands_store false _ _ _ H Hty Htx). eexists.
    split; [reflexivity|]. cbn [convoState memoryManager]. unfold stored.
    split; [intros; by rewrite lookup_insert_ne|]. split; [|done].
    intros conv'. by apply Hkeep. }
  destruct (decide (text (activity context) = Some "shop")) as [Htx|H3].
  { rewrite (localCommands_shop _ _ _ H Hty Htx). cbv zeta.
    rewrite OnSessionStartCallback_run. cbv zeta. cbn [snd].
    eexists. split; [reflexivity|].
    destruct (truthy _); unfold logged, stored;
      cbn [convoState memoryManager prevMemories];
      (split; [intros; by rewrite lookup_insert_ne|]);
      (split; [intros conv'; by apply Hkeep|]); by split. }
  destruct (decide (text (activity context) = Some "history")) as [Htx|H4].
  { rewrite (localCommands_history _ _ _ H Hty Htx). by eexists. }
  rewrite localCommands_other by done. by eexists.
Qed.

(** Every turn, branch by branch: the handler's writes stay within the
    conversation of the turn, and its outcome is decided by the guard of
    line 138. *)
Lemma handleTurn_frame context w :
  (∀ conv', conv' ≠ conv_of context →
     convoState (snd (handleTurn cl context w)) !! conv' = convoState w !! conv') ∧
  fst (handleTurn cl context w) =
    (if convoState w !! conv_of context is Some _
     then Return tt else Throw "Error Getting State").
Proof.
  destruct (convoState w !! conv_of context) as [st|] eqn:H.
  - rewrite (handleTurn_Some _ _ _ H).
    destruct (localCommands_frame _ _ _ H) as (wl & Hl & Hl1 & _).
    destruct (inTrainingUI cl context), (truthy (prop st "usingConversationLearner"));
      rewrite ?toEngine_run, ?Hl; done.
  - destruct (handleTurn_without_state_throws_aux _ _ H) as (w' & -> & H1 & _).
    cbn [fst snd]. by rewrite H1.
Qed.

(** X6: a turn never writes the state of another conversation: after the
    handler has run, on any branch and whether it returned or threw, the
    state object of every conversation other than the one of the turn is
    what it was. *)
Theorem handleTurn_touches_one_conversation context w conv' :
  conv' ≠ conv_of context →
  convoState (snd (handleTurn cl context w)) !! conv' = convoState w !! conv'.
Proof. intros Hne. by apply handleTurn_frame. Qed.

(** X7: a turn that the local dispatch handles (the conversation has a
    state object, the turn is not of the training UI and
    usingConversationLearner is falsy) only reads what a session produced:
    whatever its type and text, shop included, it changes purchasedItem on
    no state object and leaves the previous memories of the engine as they
    are.  Turns handed to the engine are not covered: what the engine does
    during recognize and SendResult, the session-end callback included, is
    not the handler's. *)
Theorem local_turn_keeps_purchasedItem context w st :
  convoState w !! conv_of context = Some st →
  inTrainingUI cl context = false →
  truthy (prop st "usingConversationLearner") = false →
  (∀ conv', stored (snd (handleTurn cl context w)) conv' "purchasedItem"
            = stored w conv' "purchasedItem") ∧
  prevMemories (memoryManager (snd (handleTurn cl context w)))
    = prevMemories (memoryManager w).
Proof.
  intros H Htr Hcl. rewrite (handleTurn_Some _ _ _ H), Htr, Hcl.
  destruct (localCommands_frame _ _ _ H) as (wl & -> & _ & Hitem & Hprev & _).
  by split.
Qed.

(** X8: the missing state object is the only failure of the handler: it
    returns normally exactly when the conversation of the turn has a state
    object, and throws the error of line 138 otherwise; dereferencing the
    module-level variable never fails. *)
Theorem handleTurn_throws_only_without_state context w :
  (fst (handleTurn cl context w) = Return tt ↔
     is_Some (convoState w !! conv_of context)) ∧
  (fst (handleTurn cl context w) = Throw "Error Getting State" ↔
     convoState w !! conv_of context = None).
Proof.
  destruct (handleTurn_frame context w) as (_ & ->).
  destruct (convoState w !! conv_of context); split; split;
    (done || by intros [? ?] || eauto).
Qed.

(** X9: in the local dispatch the engine memory is written through the shop
    command only: a turn that the local dispatch handles and whose text is
    not shop, of any type, calls nothing of the engine and leaves the whole
    memory manager as it was. *)
Theorem local_turn_without_shop_keeps_memory context w st :
  convoState w !! conv_of context = Some st →
  inTrainingUI cl context = false →
  truthy (prop st "usingConversationLearner") = false →
  text (activity context) ≠ Some "shop" →
  memoryManager (snd (handleTurn cl context w)) = memoryManager w.
Proof.
  intros H Htr Hcl Htx. rewrite (handleTurn_Some _ _ _ H), Htr, Hcl.
  destruct (localCommands_frame _ _ _ H) as (wl & -> & _ & _ & _ & Hmem).
  by apply Hmem.
Qed.

(** ** Turns and callbacks in sequence *)

(** The local dispatch never asks the engine to recognize a turn. *)
Lemma localCommands_recognizes_nothing context w st :
  convoState w !! conv_of context = Some st →
  recognizeCalls (trace (snd (localCommands context (bound (conv_of context) w))))
  = recognizeCalls (trace w).
Proof.
  intros H.
  destruct (decide (type (activity context) = "message")) as [Hty|Hty];
    [|by rewrite (localCommands_not_message _ _ Hty)].
  unfold recognizeCalls.
  destruct (decide (text (activity context) = Some "open store")) as [Htx|H1].
  { rewrite (localCommands_store true _ _ _ H Hty Htx). cbn [snd trace].
    rewrite omap_app. cbn [omap]. by rewrite app_nil_r. }
  destruct (decide (text (activity context) = Some "close store")) as [Htx|H2].
  { rewrite (localCommands_store false _ _ _ H Hty Htx). cbn [snd trace].
    rewrite omap_app. cbn [omap]. by rewrite app_nil_r. }
  destruct (decide (text (activity context) = Some "shop")) as [Htx|H3].
  { rewrite (localCommands_shop _ _ _ H Hty Htx). cbv zeta.
    rewrite OnSessionStartCallback_run. cbv zeta. cbn [snd].
    destruct (truthy _); unfold logged; cbn [trace convoState];
      rewrite !omap_app; cbn [omap]; by rewrite !app_nil_r. }
  destruct (decide (text (activity context) = Some "history")) as [Htx|H4].
  { rewrite (localCommands_history _ _ _ H Hty Htx). unfold logged, bound.
    cbn [snd trace]. rewrite omap_app. cbn [omap]. by rewrite app_nil_r. }
  rewrite localCommands_other by done. unfold logged, bound.
  cbn [snd trace]. rewrite omap_app. cbn [omap]. by rewrite app_nil_r.
Qed.

(** The shop command, run by the handler. *)
Lemma shop_run context w st :
  convoState w !! conv_of context = Some st →
  inTrainingUI cl context = false →
  truthy (prop st "usingConversationLearner") = false →
  type (activity context) = "message" →
  text (activity context) = Some "shop" →
  ∃ w1,
    handleTurn cl context w = (Return tt, w1) ∧
    convoState w1 =
      <[conv_of context := <["usingConversationLearner" := JBool true]> st]>
        (convoState w) ∧
    curMemories (memoryManager w1) =
      (if truthy (prop st "storeIsOpen")
       then <["isOpen" := prop st "storeIsOpen"]> (curMemories (memoryManager w))
       else curMemories (memoryManager w)).
Proof.
  intros H Htr Hcl Hty Htx.
  rewrite (handleTurn_Some _ _ _ H), Htr, Hcl.
  rewrite (localCommands_shop _ _ _ H Hty Htx). cbv zeta.
  rewrite OnSessionStartCallback_run. cbv zeta. cbn [snd convoState].
  rewrite lookup_insert_eq. cbn [from_option].
  assert (prop (<["usingConversationLearner" := JBool true]> st) "storeIsOpen"
          = prop st "storeIsOpen") as ->
    by (unfold prop; by rewrite lookup_insert_ne).
  eexists. split; [reflexivity|].
  by destruct (truthy (prop st "storeIsOpen")).
Qed.

(** X10: once shop has started a session, the next turn of the conversation
    belongs to the engine whatever its text is (line 177, then line 150):
    the handler asks the engine to recognize it and leaves the store alone,
    so a local command typed during the session has no local effect. *)
Theorem turn_after_shop_goes_to_engine context next w st :
  convoState w !! conv_of context = Some st →
  inTrainingUI cl context = false →
  truthy (prop st "usingConversationLearner") = false →
  type (activity context) = "message" →
  text (activity context) = Some "shop" →
  conv_of next = conv_of context →
  ∃ w1 w2,
    handleTurn cl context w = (Return tt, w1) ∧
    stored w1 (conv_of context) "usingConversationLearner" = JBool true ∧
    handleTurn cl next w1 = (Return tt, w2) ∧
    recognizeCalls (trace w2) = recognizeCalls (trace w1) ++ [next] ∧
    sent (trace w2) = sent (trace w1) ∧
    convoState w2 = convoState w1.
Proof.
  intros H Htr Hcl Hty Htx Hconv.
  destruct (shop_run _ _ _ H Htr Hcl Hty Htx) as (w1 & Hrun & Hstore & _).
  assert (convoState w1 !! conv_of next
          = Some (<["usingConversationLearner" := JBool true]> st)) as H1
    by (rewrite Hstore, Hconv; apply lookup_insert_eq).
  exists w1. eexists. split; [exact Hrun|].
  split.
  { unfold stored, prop. rewrite <- Hconv, H1. cbn [default from_option id].
    by rewrite lookup_insert_eq. }
  rewrite (handleTurn_Some _ _ _ H1).
  assert (truthy (prop (<["usingConversationLearner" := JBool true]> st)
                    "usingConversationLearner") = true) as ->
    by (unfold prop; by rewrite lookup_insert_eq).
  assert ((if inTrainingUI cl next then toEngine cl next (bound (conv_of next) w1)
           else toEngine cl next (bound (conv_of next) w1))
          = toEngine cl next (bound (conv_of next) w1)) as ->
    by (by destruct (inTrainingUI cl next)).
  rewrite toEngine_run. split; [reflexivity|].
  unfold logged, bound, recognizeCalls, sent. cbn [trace convoState].
  rewrite !omap_app.
  destruct (recognize cl next _); cbn [from_option omap]; by rewrite ?app_nil_r.
Qed.

(** X11: the end of a session, with any classification, hands the
    conversation back: the next turn that is not of the training UI is run
    by the local dispatch and the engine is not asked to recognize it, also
    when usingConversationLearner was true before the callback. *)
Theorem turn_after_session_end_is_local context ses data next w st :
  convoState w !! conv_of context = Some st →
  conv_of next = conv_of context →
  inTrainingUI cl next = false →
  ∃ w1,
    OnSessionEndCallback context ses data w = (Return tt, w1) ∧
    handleTurn cl next w1 = localCommands next (bound (conv_of next) w1) ∧
    fst (handleTurn cl next w1) = Return tt ∧
    recognizeCalls (trace (snd (handleTurn cl next w1))) = recognizeCalls (trace w1).
Proof.
  intros H Hconv Htr.
  rewrite (OnSessionEndCallback_Some _ ses data _ _ H).
  eexists. split; [reflexivity|].
  set (w1 := if bool_decide (ses = COMPLETED) then _ else _).
  assert (∃ st1, convoState w1 !! conv_of next = Some st1 ∧
                 truthy (prop st1 "usingConversationLearner") = false)
    as (st1 & H1 & Hcl1).
  { unfold w1. case_bool_decide; cbv zeta; cbn [convoState];
      rewrite Hconv, lookup_insert_eq; eexists; (split; [reflexivity|]);
      unfold prop.
    - by rewrite lookup_insert_ne, lookup_insert_eq.
    - by rewrite lookup_insert_eq. }
  rewrite (handleTurn_Some _ _ _ H1), Htr, Hcl1.
  split; [reflexivity|].
  destruct (localCommands_frame _ _ _ H1) as (w2 & Hl & _).
  split; [by rewrite Hl|].
  apply (localCommands_recognizes_nothing _ _ _ H1).
Qed.

(** X12: the store commands reach the engine through the next shop: after
    open store, shop seeds isOpen = true in the engine memory; after close
    store, shop leaves the engine memory as it was ([b] tells the two
    apart).  In both cases the state object ends with
    usingConversationLearner = true and storeIsOpen as the command set it. *)
Theorem store_command_then_shop (b : bool) context shop w st :
  convoState w !! conv_of context = Some st →
  inTrainingUI cl context = false →
  truthy (prop st "usingConversationLearner") = false →
  type (activity context) = "message" →
  text (activity context) = Some (if b then "open store" else "close store") →
  conv_of shop = conv_of context →
  inTrainingUI cl shop = false →
  type (activity shop) = "message" →
  text (activity shop) = Some "shop" →
  ∃ w1 w2,
    handleTurn cl context w = (Return tt, w1) ∧
    handleTurn cl shop w1 = (Return tt, w2) ∧
    curMemories (memoryManager w2) =
      (if b then <["isOpen" := JBool true]> (curMemories (memoryManager w))
       else curMemories (memoryManager w)) ∧
    stored w2 (conv_of context) "storeIsOpen" = JBool b ∧
    stored w2 (conv_of context) "usingConversationLearner" = JBool true.
Proof.
  intros H Htr Hcl Hty Htx Hconv Htr2 Hty2 Htx2.
  rewrite (handleTurn_Some _ _ _ H), Htr, Hcl.
  rewrite (localCommands_store b _ _ _ H Hty Htx).
  set (w1 := {| convoState := _; state := _; memoryManager := _; trace := _ |}).
  assert (convoState w1 !! conv_of shop = Some (<["storeIsOpen" := JBool b]> st)) as H1
    by (rewrite Hconv; apply lookup_insert_eq).
  assert (truthy (prop (<["storeIsOpen" := JBool b]> st) "usingConversationLearner")
          = false) as Hcl1
    by (unfold prop; by rewrite lookup_insert_ne).
  destruct (shop_run _ _ _ H1 Htr2 Hcl1 Hty2 Htx2) as (w2 & Hrun & Hstore & Hmem).
  exists w1, w2. split; [reflexivity|]. split; [exact Hrun|].
  assert (prop (<["storeIsOpen" := JBool b]> st) "storeIsOpen" = JBool b) as Hb
    by (unfold prop; by rewrite lookup_insert_eq).
  rewrite Hb in Hmem. split; [by destruct b|].
  unfold stored, prop. rewrite Hstore, <- Hconv, lookup_insert_eq.
  cbn [default from_option id].
  by rewrite lookup_insert_ne, !lookup_insert_eq.
Qed.

End BotFacts.

(** * Start-up *)

Section StartupFacts.

Context {V : Type}.
Implicit Types (config : gmap string V) (NODE_ENV : option string).

(** X13: among the calls this module makes itself, the SDK's router is
    mounted at /sdk, and the server started through startDol, exactly when
    NODE_ENV is the string development; in every other case, NODE_ENV unset
    included, the module calls listen and mounts no router.  In both modes
    the module's one call of server.post is for /api/messages.  Routes that
    startDol or the mounted router add are theirs and not described here. *)
Theorem sdk_route_only_in_development NODE_ENV dirname config :
  (∀ path, server_use path ∈ startup NODE_ENV dirname config ↔
             path = "/sdk" ∧ NODE_ENV = Some "development") ∧
  (∀ port, startDol port ∈ startup NODE_ENV dirname config ↔
             port = config !! "botPort" ∧ NODE_ENV = Some "development") ∧
  (∀ port, server_listen port ∈ startup NODE_ENV dirname config ↔
             port = config !! "botPort" ∧ NODE_ENV ≠ Some "development") ∧
  (∀ path, server_post path ∈ startup NODE_ENV dirname config ↔
             path = "/api/messages").
Proof.
  unfold startup, isDevelopment.
  repeat apply conj; intros x; case_bool_decide;
    rewrite ?elem_of_app, ?elem_of_cons, ?elem_of_nil; intuition congruence.
Qed.

(** X14: the options given to ConversationLearner.Init are the
    configuration without the three properties destructured at line 28: the
    Bot Framework credentials and the model id are never among them, and
    every other property of the configuration is, with its value.  The
    credentials go to the adapter and the model id to the
    ConversationLearner instance. *)
Theorem credentials_not_forwarded_to_Init NODE_ENV dirname config :
  (∀ opts, ConversationLearner_Init opts ∈ startup NODE_ENV dirname config ↔
             opts = clOptions config) ∧
  clOptions config !! "bfAppId" = None ∧
  clOptions config !! "bfAppPassword" = None ∧
  clOptions config !! "modelId" = None ∧
  (∀ name, name ≠ "bfAppId" → name ≠ "bfAppPassword" → name ≠ "modelId" →
     clOptions config !! name = config !! name) ∧
  (∀ appId appPassword,
     new_BotFrameworkAdapter appId appPassword ∈ startup NODE_ENV dirname config ↔
       appId = config !! "bfAppId" ∧ appPassword = config !! "bfAppPassword") ∧
  (∀ modelId, new_ConversationLearner modelId ∈ startup NODE_ENV dirname config ↔
       modelId = config !! "modelId").
Proof.
  split.
  { intros opts. unfold startup, isDevelopment. case_bool_decide;
      rewrite ?elem_of_app, ?elem_of_cons, ?elem_of_nil; intuition congruence. }
  unfold clOptions.
  split; [rewrite !lookup_delete_ne by done; apply lookup_delete_eq|].
  split; [rewrite lookup_delete_ne by done; apply lookup_delete_eq|].
  split; [apply lookup_delete_eq|].
  split; [intros; by rewrite !lookup_delete_ne by congruence|].
  split; intros; unfold startup, isDevelopment; case_bool_decide;
    rewrite ?elem_of_app, ?elem_of_cons, ?elem_of_nil; intuition congruence.
Qed.

End StartupFacts.

(** * The properties at concrete turns *)

Ltac evaluate := vm_compute; reflexivity.

Lemma session_end_resets_usingConversationLearner_witness :
  convoState (demoWorld {[ "usingConversationLearner" := JBool true ]} ∅) !! "c1"
    = Some {[ "usingConversationLearner" := JBool true ]} ∧
  ∃ w' st' later,
    OnSessionEndCallback (turn "bye") (OtherEndState 0) (Some "payload")
      (demoWorld {[ "usingConversationLearner" := JBool true ]} ∅) = (Return tt, w') ∧
    trace w' = [] ++ EvSetState "c1" "usingConversationLearner" (JBool false) :: later ∧
    convoState w' !! "c1" = Some st' ∧
    st' !! "usingConversationLearner" = Some (JBool false).
Proof.
  split; [reflexivity|].
  apply (session_end_resets_usingConversationLearner (turn "bye") (OtherEndState 0)
           (Some "payload")
           (demoWorld {[ "usingConversationLearner" := JBool true ]} ∅)
           {[ "usingConversationLearner" := JBool true ]}).
  reflexivity.
Defined.

Lemma session_end_without_state_throws_witness :
  convoState emptyWorld !! "c1" = None ∧
  OnSessionEndCallback (turn "bye") COMPLETED None emptyWorld
    = (Throw "Bot State not Initialized!", emptyWorld).
Proof.
  split; [reflexivity|].
  apply (session_end_without_state_throws (turn "bye") COMPLETED None emptyWorld).
  reflexivity.
Defined.

Lemma handleTurn_without_state_throws_witness :
  convoState emptyWorld !! "c1" = None ∧
  ∃ w',
    handleTurn (demoEngine true) (turn "shop") emptyWorld
      = (Throw "Error Getting State", w') ∧
    state w' = None ∧
    convoState w' = convoState emptyWorld ∧
    memoryManager w' = memoryManager emptyWorld ∧
    trace w' = trace emptyWorld.
Proof.
  split; [reflexivity|].
  apply (handleTurn_without_state_throws (demoEngine true) (turn "shop") emptyWorld).
  reflexivity.
Defined.

Lemma training_turn_goes_to_engine_witness :
  inTrainingUI (demoEngine true) (turn "shop") = true ∧
  truthy (prop (∅ : BotState) "usingConversationLearner") = false ∧
  ∃ w',
    handleTurn (demoEngine true) (turn "shop") (demoWorld ∅ ∅) = (Return tt, w') ∧
    trace w' = [EvRecognize (turn "shop"); EvSendResult "action"] ∧
    convoState w' = convoState (demoWorld ∅ ∅).
Proof.
  split; [reflexivity|]. split; [reflexivity|].
  destruct (training_turn_goes_to_engine (demoEngine true) (turn "shop")
              (demoWorld ∅ ∅) ∅ ltac:(evaluate) ltac:(evaluate))
    as (w' & result & Hrun & Hres & Htrace & _ & _ & _ & Hstore & _).
  exists w'. split; [exact Hrun|]. split; [|exact Hstore].
  rewrite Htrace, Hres. reflexivity.
Defined.

Lemma shop_starts_session_witness :
  ∃ w',
    handleTurn (demoEngine false) (turn "shop")
      (demoWorld {[ "storeIsOpen" := JBool true ]} ∅) = (Return tt, w') ∧
    trace w' =
      [EvSetState "c1" "usingConversationLearner" (JBool true);
       EvStartSession (turn "shop"); EvOnSessionStart (turn "shop");
       EvRememberEntity "isOpen" (JBool true);
       EvSendActivity "c1" "Let's shop!"].
Proof.
  destruct (shop_starts_session (demoEngine false) (turn "shop")
              (demoWorld {[ "storeIsOpen" := JBool true ]} ∅)
              {[ "storeIsOpen" := JBool true ]}
              ltac:(evaluate) ltac:(evaluate) ltac:(evaluate) ltac:(evaluate) ltac:(evaluate))
    as (atHook & afterHook & w' & stHook & evs & _ & _ & _ & _ & _ & _
        & Hrun & Hw' & Htrace & Hevs & _).
  exists w'. split; [by rewrite Hw'|].
  rewrite Htrace, Hevs. reflexivity.
Defined.

Lemma unknown_text_gets_help_witness :
  ∃ w',
    let q := String (Ascii.ascii_of_nat 34) in
    let help :=
      "You can: " +:+ q ("open store" +:+ q (", " +:+ q ("close store" +:+ q (", "
        +:+ q ("shop" +:+ q (", " +:+ q ("history" +:+ q EmptyString))))))) in
    handleTurn (demoEngine false) (turn "Open Store") (demoWorld ∅ ∅) = (Return tt, w') ∧
    trace w' = [EvSendActivity "c1" help] ∧
    convoState w' = convoState (demoWorld ∅ ∅).
Proof.
  destruct (unknown_text_gets_help (demoEngine false) (turn "Open Store")
              (demoWorld ∅ ∅) ∅ ltac:(evaluate) ltac:(evaluate) ltac:(evaluate) ltac:(evaluate))
    as (w' & Hrun & Htrace & _ & _ & Hstore & _); try discriminate.
  exists w'. by split.
Defined.

Lemma store_commands_set_storeIsOpen_witness :
  ∃ w' st',
    handleTurn (demoEngine false) (turn "close store")
      (demoWorld {[ "storeIsOpen" := JBool true ]} ∅) = (Return tt, w') ∧
    trace w' = [EvSetState "c1" "storeIsOpen" (JBool false);
                EvSendActivity "c1" "Store is CLOSED!"] ∧
    convoState w' !! "c1" = Some st' ∧
    st' !! "storeIsOpen" = Some (JBool false).
Proof.
  destruct (store_commands_set_storeIsOpen (demoEngine false) false (turn "close store")
              (demoWorld {[ "storeIsOpen" := JBool true ]} ∅)
              {[ "storeIsOpen" := JBool true ]}
              ltac:(evaluate) ltac:(evaluate) ltac:(evaluate) ltac:(evaluate) ltac:(evaluate))
    as (w' & st' & Hrun & Htrace & Hst & _ & Hopen & _).
  exists w', st'. by split.
Defined.

Lemma completed_session_result_shown_by_history_witness :
  ∃ w1 w2,
    OnSessionEndCallback (turn "bye") COMPLETED None
      (demoWorld ∅ {[ "purchaseItem" := "hat" ]}) = (Return tt, w1) ∧
    handleTurn (demoEngine false) (turn "history") w1 = (Return tt, w2) ∧
    trace w2 = trace w1 ++ [EvSendActivity "c1" "You bought hat"].
Proof.
  destruct (completed_session_result_shown_by_history (demoEngine false)
              (turn "history") ltac:(evaluate) ltac:(evaluate) ltac:(evaluate)) as [Hitem _].
  destruct (Hitem (turn "bye") None (demoWorld ∅ {[ "purchaseItem" := "hat" ]})
              ∅ "hat" ltac:(evaluate) ltac:(evaluate) ltac:(evaluate))
    as (w1 & st1 & w2 & Hend & _ & _ & _ & Hrun & Hecho & _).
  exists w1, w2. split; [exact Hend|]. split; [exact Hrun|].
  apply Hecho. discriminate.
Defined.

(** ** Where the spec and the code part *)

(** C4 as stated fails: close store leaves a state object in which
    storeIsOpen is present and false, and on it the session-start callback
    remembers nothing: the engine memory has no isOpen afterwards and the
    callback performed no effect. *)
Lemma session_start_skips_false_storeIsOpen :
  convoState (snd (handleTurn (demoEngine false) (turn "close store") (demoWorld ∅ ∅)))
    !! "c1" = Some {[ "storeIsOpen" := JBool false ]} ∧
  ({[ "storeIsOpen" := JBool false ]} : BotState) !! "storeIsOpen" = Some (JBool false) ∧
  fst (OnSessionStartCallback (turn "shop")
         (demoWorld {[ "storeIsOpen" := JBool false ]} ∅)) = Return tt ∧
  curMemories (memoryManager
    (snd (OnSessionStartCallback (turn "shop")
            (demoWorld {[ "storeIsOpen" := JBool false ]} ∅)))) !! "isOpen" = None ∧
  trace (snd (OnSessionStartCallback (turn "shop")
                (demoWorld {[ "storeIsOpen" := JBool false ]} ∅))) = [].
Proof. repeat split; vm_compute; reflexivity. Qed.

(** C5 as stated fails: a completed session whose result value is the empty
    string persists it, and the history turn that follows does not echo it
    but answers with the word nothing. *)
Lemma empty_result_not_echoed_by_history :
  prevMemories (memoryManager (demoWorld ∅ {[ "purchaseItem" := "" ]}))
    !! "purchaseItem" = Some "" ∧
  convoState (snd (OnSessionEndCallback (turn "bye") COMPLETED None
                     (demoWorld ∅ {[ "purchaseItem" := "" ]}))) !! "c1"
    = Some {[ "usingConversationLearner" := JBool false;
              "purchasedItem" := JString "" ]} ∧
  sent (trace (snd (handleTurn (demoEngine false) (turn "history")
                      (snd (OnSessionEndCallback (turn "bye") COMPLETED None
                              (demoWorld ∅ {[ "purchaseItem" := "" ]}))))))
    = ["Thanks for shopping."; "You bought nothing"] ∧
  "You bought nothing" ≠ "You bought " +:+ "".
Proof. repeat split; vm_compute; (reflexivity || discriminate). Qed.

(** ** The further properties at concrete turns *)

Lemma delegated_turn_goes_to_engine_witness :
  ∃ w',
    handleTurn (demoEngine false) (turn "close store")
      (demoWorld {[ "usingConversationLearner" := JBool true;
                    "storeIsOpen" := JBool true ]} ∅) = (Return tt, w') ∧
    trace w' = [EvRecognize (turn "close store"); EvSendResult "action"] ∧
    stored w' "c1" "storeIsOpen" = JBool true.
Proof.
  destruct (delegated_turn_goes_to_engine (demoEngine false) (turn "close store")
              (demoWorld {[ "usingConversationLearner" := JBool true;
                            "storeIsOpen" := JBool true ]} ∅)
              {[ "usingConversationLearner" := JBool true;
                 "storeIsOpen" := JBool true ]}
              ltac:(evaluate) ltac:(evaluate) ltac:(evaluate))
    as (w' & result & Hrun & Hres & Htrace & _ & _ & _ & Hstore & _).
  exists w'. split; [exact Hrun|]. split.
  - rewrite Htrace, Hres. reflexivity.
  - unfold stored. rewrite Hstore. evaluate.
Defined.

Lemma non_message_activity_ignored_witness :
  handleTurn (demoEngine false)
    {| activity := {| type := "conversationUpdate"; text := Some "shop";
                      conversation := "c1" |} |}
    (demoWorld ∅ ∅)
  = (Return tt, bound "c1" (demoWorld ∅ ∅)).
Proof.
  apply (non_message_activity_ignored (demoEngine false)
           {| activity := {| type := "conversationUpdate"; text := Some "shop";
                             conversation := "c1" |} |}
           (demoWorld ∅ ∅) ∅
           ltac:(evaluate) ltac:(evaluate) ltac:(evaluate) ltac:(discriminate)).
Defined.

Lemma session_end_not_completed_only_resets_witness :
  ∃ w',
    OnSessionEndCallback (turn "bye") (OtherEndState 0) None
      (demoWorld {[ "purchasedItem" := JString "hat" ]} {[ "purchaseItem" := "scarf" ]})
      = (Return tt, w') ∧
    trace w' = [EvSetState "c1" "usingConversationLearner" (JBool false)] ∧
    stored w' "c1" "purchasedItem" = JString "hat".
Proof.
  destruct (session_end_not_completed_only_resets (turn "bye") (OtherEndState 0) None
              (demoWorld {[ "purchasedItem" := JString "hat" ]}
                 {[ "purchaseItem" := "scarf" ]})
              {[ "purchasedItem" := JString "hat" ]}
              ltac:(evaluate) ltac:(discriminate))
    as (w' & Hrun & Htrace & _ & _ & Hitem & _).
  exists w'. split; [exact Hrun|]. split; [exact Htrace|].
  etransitivity; [exact Hitem|evaluate].
Defined.

Lemma session_end_frame_witness :
  ∃ w',
    OnSessionEndCallback (turn "bye") COMPLETED None
      (demoWorld {[ "storeIsOpen" := JBool true ]} {[ "purchaseItem" := "scarf" ]})
      = (Return tt, w') ∧
    stored w' "c1" "storeIsOpen" = JBool true.
Proof.
  destruct (session_end_frame (turn "bye") COMPLETED None
              (demoWorld {[ "storeIsOpen" := JBool true ]}
                 {[ "purchaseItem" := "scarf" ]})
              {[ "storeIsOpen" := JBool true ]} ltac:(evaluate))
    as (w' & Hrun & Hkeep & _).
  exists w'. split; [exact Hrun|].
  etransitivity;
    [exact (Hkeep "storeIsOpen" ltac:(discriminate) ltac:(discriminate))|evaluate].
Defined.

Lemma completed_session_without_item_erases_purchase_witness :
  ∃ w1 w2,
    OnSessionEndCallback (turn "bye") COMPLETED None
      (demoWorld {[ "purchasedItem" := JString "hat" ]} ∅) = (Return tt, w1) ∧
    stored w1 "c1" "purchasedItem" = JNull ∧
    handleTurn (demoEngine false) (turn "history") w1 = (Return tt, w2) ∧
    trace w2 = trace w1 ++ [EvSendActivity "c1" "You bought nothing"].
Proof.
  apply (completed_session_without_item_erases_purchase (demoEngine false)
           (turn "bye") None (demoWorld {[ "purchasedItem" := JString "hat" ]} ∅)
           {[ "purchasedItem" := JString "hat" ]} (turn "history")
           ltac:(evaluate) ltac:(evaluate) ltac:(evaluate) ltac:(evaluate)
           ltac:(evaluate) ltac:(evaluate)).
Defined.

Lemma handleTurn_touches_one_conversation_witness :
  convoState (snd (handleTurn (demoEngine false) (turn "open store")
                     (demoWorld ∅ ∅))) !! "c2"
  = convoState (demoWorld ∅ ∅) !! "c2".
Proof.
  apply (handleTurn_touches_one_conversation (demoEngine false) (turn "open store")
           (demoWorld ∅ ∅) "c2" ltac:(discriminate)).
Defined.

Lemma local_turn_keeps_purchasedItem_witness :
  stored (snd (handleTurn (demoEngine false) (turn "shop")
                 (demoWorld {[ "purchasedItem" := JString "hat" ]} ∅)))
    "c1" "purchasedItem" = JString "hat".
Proof.
  destruct (local_turn_keeps_purchasedItem (demoEngine false) (turn "shop")
              (demoWorld {[ "purchasedItem" := JString "hat" ]} ∅)
              {[ "purchasedItem" := JString "hat" ]}
              ltac:(evaluate) ltac:(evaluate) ltac:(evaluate)) as [Hitem _].
  etransitivity; [exact (Hitem "c1")|evaluate].
Defined.

Lemma local_turn_without_shop_keeps_memory_witness :
  memoryManager (snd (handleTurn (demoEngine false) (turn "open store")
                        (demoWorld ∅ {[ "purchaseItem" := "hat" ]})))
  = memoryManager (demoWorld ∅ {[ "purchaseItem" := "hat" ]}).
Proof.
  apply (local_turn_without_shop_keeps_memory (demoEngine false) (turn "open store")
           (demoWorld ∅ {[ "purchaseItem" := "hat" ]}) ∅
           ltac:(evaluate) ltac:(evaluate) ltac:(evaluate) ltac:(discriminate)).
Defined.

Lemma turn_after_shop_goes_to_engine_witness :
  ∃ w1 w2,
    handleTurn (demoEngine false) (turn "shop") (demoWorld ∅ ∅) = (Return tt, w1) ∧
    handleTurn (demoEngine false) (turn "open store") w1 = (Return tt, w2) ∧
    recognizeCalls (trace w2) = recognizeCalls (trace w1) ++ [turn "open store"] ∧
    convoState w2 = convoState w1.
Proof.
  destruct (turn_after_shop_goes_to_engine (demoEngine false) (turn "shop")
              (turn "open store") (demoWorld ∅ ∅) ∅
              ltac:(evaluate) ltac:(evaluate) ltac:(evaluate) ltac:(evaluate)
              ltac:(evaluate) ltac:(evaluate))
    as (w1 & w2 & Hshop & _ & Hnext & Hcalls & _ & Hstore).
  by exists w1, w2.
Defined.

Lemma turn_after_session_end_is_local_witness :
  ∃ w1,
    OnSessionEndCallback (turn "bye") (OtherEndState 0) None
      (demoWorld {[ "usingConversationLearner" := JBool true ]} ∅) = (Return tt, w1) ∧
    handleTurn (demoEngine false) (turn "open store") w1
      = localCommands (turn "open store") (bound "c1" w1) ∧
    recognizeCalls (trace (snd (handleTurn (demoEngine false) (turn "open store") w1)))
      = recognizeCalls (trace w1).
Proof.
  destruct (turn_after_session_end_is_local (demoEngine false) (turn "bye")
              (OtherEndState 0) None (turn "open store")
              (demoWorld {[ "usingConversationLearner" := JBool true ]} ∅)
              {[ "usingConversationLearner" := JBool true ]}
              ltac:(evaluate) ltac:(evaluate) ltac:(evaluate))
    as (w1 & Hend & Hlocal & _ & Hcalls).
  by exists w1.
Defined.

Lemma store_command_then_shop_witness :
  ∃ w1 w2,
    handleTurn (demoEngine false) (turn "open store") (demoWorld ∅ ∅) = (Return tt, w1) ∧
    handleTurn (demoEngine false) (turn "shop") w1 = (Return tt, w2) ∧
    curMemories (memoryManager w2) = {[ "isOpen" := JBool true ]}.
Proof.
  destruct (store_command_then_shop (demoEngine false) true (turn "open store")
              (turn "shop") (demoWorld ∅ ∅) ∅
              ltac:(evaluate) ltac:(evaluate) ltac:(evaluate) ltac:(evaluate)
              ltac:(evaluate) ltac:(evaluate) ltac:(evaluate) ltac:(evaluate)
              ltac:(evaluate))
    as (w1 & w2 & Hopen & Hshop & Hmem & _).
  exists w1, w2. split; [exact Hopen|]. split; [exact Hshop|].
  rewrite Hmem. evaluate.
Defined.
